(** * Presentation-layer components of the KPI front-end

    A shallow embedding of the logic found in
    - the user permissions editor ([UserAssetPermsEditor], a React class
      component holding a mutable [this.state] object),
    - the side tabs of the form view ([getFormDataTabs]),
    - the usage dashboard ([Usage]),
    - the quick actions of the projects table ([ProjectQuickActions]).

    JavaScript objects used as string-keyed records are finite maps from
    strings to values; a key that is absent reads as [undefined].  Code that
    mutates an object in place and may raise a [TypeError] is written in a
    small state-and-exception monad whose exceptional outcome still carries
    the object as mutated so far. *)

From stdpp Require Import base option list strings gmap fin_maps.
From Stdlib Require Import Ascii Floats.

Local Open Scope string_scope.

(** ** JavaScript values held by the objects of the components *)

Inductive Value : Type :=
| VBool (b : bool)
| VStr (s : string)
| VList (l : list string)       (* an array of strings *)
| VSet (s : gset string).       (* a [Set] of strings *)

(** A string-keyed object; [o !! k = None] is [o[k] === undefined]. *)
Abbreviation Obj := (gmap string Value).

(** [x === false] and [x === true]. *)
Definition is_false (x : option Value) : bool :=
  match x with Some (VBool false) => true | _ => false end.

Definition is_true (x : option Value) : bool :=
  match x with Some (VBool true) => true | _ => false end.

(** Truthiness, as used by [!x], [x ? a : b] and [if (x)]. *)
Definition truthy (x : option Value) : bool :=
  match x with
  | None => false
  | Some (VBool b) => b
  | Some (VStr s) => negb (bool_decide (s = ""))
  | Some (VList _) => true
  | Some (VSet _) => true
  end.

(** [s.endsWith(suffix)]. *)
Definition endsWith (s suffix : string) : bool :=
  let n := String.length s in
  let m := String.length suffix in
  if decide (m ≤ n)%nat
  then bool_decide (String.substring (n - m) m s = suffix)
  else false.

(** The template literal [`${name}${tail}`]. *)
Definition key (name tail : string) : string := name +:+ tail.

(** ** Mutation of an object with exceptions

    [M S A] is a computation over a store [S] that either returns a value
    or throws; both outcomes carry the store, since assignments made before
    a throw stay visible through every alias of the object. *)

Inductive outcome (S A : Type) : Type :=
| Ret (a : A) (s : S)
| Throw (s : S).
Arguments Ret {S A} a s.
Arguments Throw {S A} s.

Definition M (S A : Type) : Type := S → outcome S A.

Definition mthrow {S A} : M S A := λ s, Throw s.
Definition mget {S} : M S S := λ s, Ret s s.
Definition mmodify {S} (f : S → S) : M S unit := λ s, Ret tt (f s).

#[global] Instance M_ret {S} : MRet (M S) := λ A a s, Ret a s.

#[global] Instance M_bind {S} : MBind (M S) := λ A B f m s,
  match m s with
  | Ret a s' => f a s'
  | Throw s' => Throw s'
  end.

(** [xs.forEach(f)], in the order of [xs]. *)
Fixpoint forEach {S A} (xs : list A) (f : A → M S unit) : M S unit :=
  match xs with
  | [] => mret tt
  | x :: xs' => f x;; forEach xs' f
  end.

(** [obj[k] = v]. *)
Definition assignKey (k : string) (v : Value) : M Obj unit :=
  mmodify (λ o, <[k := v]> o).

(** Runs a computation over a part of the store. *)
Definition zoom {S T A} (get : S → T) (set : T → S → S) (m : M T A) : M S A :=
  λ s, match m (get s) with
       | Ret a t => Ret a (set t s)
       | Throw t => Throw (set t s)
       end.

(** ** External collaborators of the permissions editor

    Neither [js/constants] nor [permConfig], [permParser], the stores and
    [js/utils] are part of the sources at hand; they are parameters. *)

(** A permission definition as served by [permConfig]. *)
Record PermDef : Type := {
  url : string;
  codename : string;
  implied : list string;        (* urls *)
  contradictory : list string;  (* urls *)
}.

(** The [permConfig] object: both getters answer [undefined] when nothing
    is found; [getPermissionByCodename] may itself receive [undefined]. *)
Record PermConfig : Type := {
  getPermission : string → option PermDef;
  getPermissionByCodename : option string → option PermDef;
}.

(** One entry of a list of permission assignments. *)
Record Perm : Type := {
  user : string;            (* url of the user *)
  permission : string;      (* url of the permission *)
}.

Record Externals : Type := {
  (* js/constants *)
  PERMISSIONS_CODENAMES : gmap string string;
  ANON_USERNAME : string;
  (* ./permConfig *)
  permConfig : PermConfig;
  (* ./permParser *)
  buildFormData : list Perm → Obj;
  parseFormData : Obj → list Perm;
  (* js/utils *)
  buildUserUrl : option Value → string;
  t : string → string;
  (* stores.userExists.checkUsername *)
  checkUsername : string → option bool;
  (* navigator.onLine *)
  onLine : bool;
}.

(** ** The user permissions editor *)

Module UserAssetPermsEditor.

(** The props of the component.  [onSubmitEnd] is a callback of the parent;
    the component only asks whether it is a function and calls it. *)
Record Props : Type := {
  uid : string;
  username : option string;
  permissions : option (list Perm);
  assignablePerms : gmap string string;
  nonOwnerPerms : list Perm;
  onSubmitEndIsFunction : bool;   (* typeof this.props.onSubmitEnd === 'function' *)
}.

(** What the component does to the outside, in the order it does it. *)
Inductive Effect : Type :=
| PreventDefault                                            (* evt.preventDefault() *)
| BulkSetAssetPermissions (assetUid : string) (perms : list Perm)
| OnSubmitEnd (isSuccess : bool)                            (* this.props.onSubmitEnd(isSuccess) *)
| Notify (msg : string) (kind : string)
| CheckUsernameAction (name : string).                      (* actions.misc.checkUsername *)

(** A mounted component: the object [this.state] and the effects so far. *)
Record Inst : Type := {
  state : Obj;
  effects : list Effect;
}.

Definition setStateObj (o : Obj) (w : Inst) : Inst :=
  {| state := o; effects := effects w |}.

(** Runs a mutation of [this.state]. *)
Definition onState {A} (m : M Obj A) : M Inst A := zoom state setStateObj m.

Definition getState : M Inst Obj := λ w, Ret (state w) w.

Definition emit (e : Effect) : M Inst unit :=
  mmodify (λ w, {| state := state w; effects := effects w ++ [e] |}).

(** [this.setState(partial)]: the partial state is merged into the state.
    The update is taken to be applied at once, which is what React does for
    calls made outside of its own event handlers and what the readers of
    [this.state] right after a [setState] in this component rely on. *)
Definition setState (partial : Obj) : M Inst unit :=
  onState (mmodify (λ st, partial ∪ st)).

(** [x.length]: a [TypeError] ([None]) on [undefined], and [undefined]
    ([Some None]) on a value that has no length. *)
Definition jsLength (x : option Value) : option (option nat) :=
  match x with
  | None => None
  | Some (VStr s) => Some (Some (String.length s))
  | Some (VList l) => Some (Some (length l))
  | Some (VBool _) | Some (VSet _) => Some None
  end.

(** [x.size], likewise. *)
Definition jsSize (x : option Value) : option (option nat) :=
  match x with
  | None => None
  | Some (VSet s) => Some (Some (size s))
  | Some _ => Some None
  end.

(** [a && b] on operands that are booleans, [b] being evaluated only when
    [a] is [true]; [None] is a [TypeError] raised by an operand. *)
Definition andAlso (a b : option bool) : option bool :=
  match a with
  | Some true => b
  | _ => a
  end.
Infix "&&?" := andAlso (at level 40, left associativity).

Section Editor.
Context (ext : Externals).

(** [PERMISSIONS_CODENAMES.get(name)] *)
Definition codenameGet (name : option string) : option string :=
  name ≫= λ n, PERMISSIONS_CODENAMES ext !! n.

(** The map of checkboxes to permissions, in insertion order. *)
Definition CHECKBOX_PERM_PAIRS : list (string * option string) :=
  [ ("formView", codenameGet (Some "view_asset"));
    ("formEdit", codenameGet (Some "change_asset"));
    ("submissionsAdd", codenameGet (Some "add_submissions"));
    ("submissionsAddPartial", codenameGet (Some "partial_submissions"));
    ("submissionsView", codenameGet (Some "view_submissions"));
    ("submissionsViewPartial", codenameGet (Some "partial_submissions"));
    ("submissionsEdit", codenameGet (Some "change_submissions"));
    ("submissionsEditPartial", codenameGet (Some "partial_submissions"));
    ("submissionsValidate", codenameGet (Some "validate_submissions"));
    ("submissionsValidatePartial", codenameGet (Some "partial_submissions")) ].

(** [this.state] as the constructor sets it up. *)
Definition initialState : Obj :=
  list_to_map
    [ ("usernamesBeingChecked", VSet ∅);
      ("isSubmitPending", VBool false);
      ("isEditingUsername", VBool false);
      ("username", VStr "");
      ("formView", VBool false);
      ("formViewDisabled", VBool false);
      ("formEdit", VBool false);
      ("submissionsView", VBool false);
      ("submissionsViewDisabled", VBool false);
      ("submissionsViewPartial", VBool false);
      ("submissionsViewPartialDisabled", VBool false);
      ("submissionsViewPartialUsers", VList []);
      ("submissionsAdd", VBool false);
      ("submissionsAddDisabled", VBool false);
      ("submissionsAddPartial", VBool false);
      ("submissionsAddPartialDisabled", VBool false);
      ("submissionsAddPartialUsers", VList []);
      ("submissionsEdit", VBool false);
      ("submissionsEditDisabled", VBool false);
      ("submissionsEditPartial", VBool false);
      ("submissionsEditPartialDisabled", VBool false);
      ("submissionsEditPartialUsers", VList []);
      ("submissionsValidate", VBool false);
      ("submissionsValidateDisabled", VBool false);
      ("submissionsValidatePartial", VBool false);
      ("submissionsValidatePartialDisabled", VBool false);
      ("submissionsValidatePartialUsers", VList []) ].

(** [CHECKBOX_PERM_PAIRS.get(checkboxName)] *)
Fixpoint mapGet (pairs : list (string * option string)) (k : string)
  : option string :=
  match pairs with
  | [] => None
  | (k', v) :: rest => if decide (k' = k) then v else mapGet rest k
  end.

Definition getCheckboxPermissionPair (checkboxName : string) : option string :=
  mapGet CHECKBOX_PERM_PAIRS checkboxName.

(** Several checkboxes share [partial_submissions], hence a list. *)
Definition getPermissionCheckboxPairs (permCodename : string) : list string :=
  (filter (λ pair, pair.2 = Some permCodename) CHECKBOX_PERM_PAIRS).*1.

Definition getImpliedPermissions (permCodename : option string) : list string :=
  match getPermissionByCodename (permConfig ext) (codenameGet permCodename) with
  | Some permDef => implied permDef
  | None => []
  end.

Definition getContradictoryPermissions (permCodename : option string)
  : list string :=
  match getPermissionByCodename (permConfig ext) (codenameGet permCodename) with
  | Some permDef => contradictory permDef
  | None => []
  end.

(** Reading [.codename] of what [permConfig.getPermission] answers throws
    when the answer is [undefined]. *)
Definition codenameOfUrl (permUrl : string) : M Obj string :=
  match getPermission (permConfig ext) permUrl with
  | Some permDef => mret (codename permDef)
  | None => mthrow
  end.

Definition applyValidityRulesForCheckbox (checkboxName : string) : M Obj unit :=
  stateObj ← mget;
  (* only applies the rules for checked checkboxes *)
  if is_false (stateObj !! checkboxName) then mret tt
  else
    let permissionPair := getCheckboxPermissionPair checkboxName in
    let impliedPerms := getImpliedPermissions permissionPair in
    let contradictoryPerms := getContradictoryPermissions permissionPair in
    (* all implied will be checked and disabled *)
    forEach impliedPerms (λ permUrl,
      impliedCodename ← codenameOfUrl permUrl;
      forEach (getPermissionCheckboxPairs impliedCodename) (λ impliedCheckbox,
        assignKey impliedCheckbox (VBool true);;
        assignKey (key impliedCheckbox "Disabled") (VBool true)));;
    (* all contradictory will be unchecked and disabled *)
    forEach contradictoryPerms (λ permUrl,
      contradictoryCodename ← codenameOfUrl permUrl;
      forEach (getPermissionCheckboxPairs contradictoryCodename)
        (λ contradictoryCheckbox,
          assignKey contradictoryCheckbox (VBool false);;
          assignKey (key contradictoryCheckbox "Disabled") (VBool true))).

(** Mutates the object it is given and returns that same object, so the
    result is read off the store. *)
Definition applyValidityRules : M Obj unit :=
  (* enable all checkboxes before applying rules *)
  forEach CHECKBOX_PERM_PAIRS (λ pair,
    assignKey (key pair.1 "Disabled") (VBool false));;
  (* apply permissions configuration rules to checkboxes *)
  forEach CHECKBOX_PERM_PAIRS (λ pair,
    applyValidityRulesForCheckbox pair.1);;
  (* cleanup unchecked partial checkboxes users lists *)
  forEach CHECKBOX_PERM_PAIRS (λ pair,
    stateObj ← mget;
    if endsWith pair.1 "Partial" && is_false (stateObj !! pair.1)
    then assignKey (key pair.1 "Users") (VList [])
    else mret tt).

(** [assign(this.state, formData)] copies the properties of [formData]
    onto the state object. *)
Definition applyPropsData (p : Props) : M Obj unit :=
  match permissions p with
  | Some perms =>
      let formData := buildFormData ext perms in
      mmodify (λ st, formData ∪ st);;
      applyValidityRules
  | None => mret tt
  end;;
  match username p with
  | Some u => if bool_decide (u = "") then mret tt
              else assignKey "username" (VStr u)
  | None => mret tt
  end.

Definition constructor (p : Props) : outcome Obj unit :=
  applyPropsData p initialState.

Definition notifyParentAboutSubmitEnd (p : Props) (isSuccess : bool)
  : M Inst unit :=
  st ← getState;
  if negb (truthy (st !! "isSubmitPending")) && onSubmitEndIsFunction p
  then emit (OnSubmitEnd isSuccess)
  else mret tt.

Definition onBulkSetAssetPermissionCompleted (p : Props) : M Inst unit :=
  setState {[ "isSubmitPending" := VBool false ]};;
  notifyParentAboutSubmitEnd p true.

Definition onBulkSetAssetPermissionFailed (p : Props) : M Inst unit :=
  setState {[ "isSubmitPending" := VBool false ]};;
  notifyParentAboutSubmitEnd p false.

(** [newState] is [this.state] itself: the assignment and the rules act on
    the state object, and [setState] is then handed that very object. *)
Definition onCheckboxChange (id : string) (isChecked : bool) : M Inst unit :=
  onState (assignKey id (VBool isChecked));;
  onState applyValidityRules;;
  newState ← getState;
  setState newState.

(** Partial can't be empty if checked *)
Definition isPartialValid (st : Obj) (partialCheckboxName : string)
  : option bool :=
  if truthy (st !! partialCheckboxName)
  then len ← jsLength (st !! key partialCheckboxName "Users");
       Some (match len with
             | Some n => negb (n =? 0)%nat      (* n !== 0 *)
             | None => true                     (* undefined !== 0 *)
             end)
  else Some true.

(** Blocks submitting non-ready form. *)
Definition isSubmitEnabled (st : Obj) : option bool :=
  let isAnyCheckboxChecked :=
    existsb (λ pair, is_true (st !! pair.1)) CHECKBOX_PERM_PAIRS in
  Some isAnyCheckboxChecked &&?
  isPartialValid st "submissionsViewPartial" &&?
  isPartialValid st "submissionsAddPartial" &&?
  isPartialValid st "submissionsEditPartial" &&?
  isPartialValid st "submissionsValidatePartial" &&?
  Some (negb (truthy (st !! "isSubmitPending"))) &&?
  Some (negb (truthy (st !! "isEditingUsername"))) &&?
  (len ← jsLength (st !! "username");
   Some (match len with Some n => (0 <? n)%nat | None => false end)) &&?
  (sz ← jsSize (st !! "usernamesBeingChecked");
   Some (match sz with Some n => (n =? 0)%nat | None => false end)) &&?
  (* we don't allow manual setting anonymous user permissions through UI *)
  Some (match st !! "username" with
        | Some (VStr u) => negb (bool_decide (u = ANON_USERNAME ext))
        | _ => true
        end).

Definition isAssignable (p : Props) (permCodename : string) : bool :=
  match getPermissionByCodename (permConfig ext)
          (codenameGet (Some permCodename)) with
  | None => false
  | Some permDef => bool_decide (is_Some (assignablePerms p !! url permDef))
  end.

(** [output[k] = v], where [v] may be [undefined]. *)
Definition setProp (k : string) (v : option Value) (o : Obj) : Obj :=
  match v with
  | Some x => <[k := x]> o
  | None => delete k o
  end.

Definition copyIf (b : bool) (k : string) (st : Obj) (output : Obj) : Obj :=
  if b then setProp k (st !! k) output else output.

(** Returns only the properties for assignable permissions *)
Definition getFormData (p : Props) (st : Obj) : Obj :=
  let output := setProp "username" (st !! "username") ∅ in
  let output := copyIf (isAssignable p "view_asset") "formView" st output in
  let output := copyIf (isAssignable p "change_asset") "formEdit" st output in
  let output :=
    copyIf (isAssignable p "add_submissions") "submissionsAdd" st output in
  let output :=
    copyIf (isAssignable p "view_submissions") "submissionsView" st output in
  let output :=
    copyIf (isAssignable p "partial_submissions")
      "submissionsViewPartialUsers" st
      (copyIf (isAssignable p "partial_submissions")
         "submissionsViewPartial" st output) in
  let output :=
    copyIf (isAssignable p "change_submissions") "submissionsEdit" st output in
  let output :=
    copyIf (isAssignable p "validate_submissions") "submissionsValidate"
      st output in
  output.

(** The handler returns [undefined] ([None]) when the form is not ready and
    [false] otherwise. *)
Definition submit (p : Props) : M Inst (option bool) :=
  emit PreventDefault;;
  st ← getState;
  match isSubmitEnabled st with
  | None => mthrow
  | Some false => mret None
  | Some true =>
      let formData := getFormData p st in
      let parsedUser := parseFormData ext formData in
      (if (0 <? length parsedUser)%nat then
         (* bulk endpoint needs all other users permissions to be passed *)
         let otherUserPerms :=
           filter (λ perm, user perm ≠ buildUserUrl ext (formData !! "username"))
                  (nonOwnerPerms p) in
         setState {[ "isSubmitPending" := VBool true ]};;
         emit (BulkSetAssetPermissions (uid p) (otherUserPerms ++ parsedUser))
       else
         (* if nothing changes but user submits, just notify parent we're good *)
         notifyParentAboutSubmitEnd p true);;
      mret (Some false)
  end.

Definition notifyUnknownUser (name : string) : M Inst unit :=
  if onLine ext
  then emit (Notify (t ext "User not found:" +:+ " " +:+ name) "warning")
  else mret tt.

(** This function calls API and relies on onUserExistsStoreChange callback.
    [usernamesBeingChecked] is mutated in place and handed to [setState]. *)
Definition checkUsernameAsync (name : string) : M Inst unit :=
  st ← getState;
  match st !! "usernamesBeingChecked" with
  | Some (VSet names) =>
      onState (assignKey "usernamesBeingChecked" (VSet ({[ name ]} ∪ names)));;
      setState {[ "usernamesBeingChecked" := VSet ({[ name ]} ∪ names) ]};;
      emit (CheckUsernameAction name)
  | _ => mthrow      (* no [add] method to call *)
  end.

(** Checks if username exist on the Backend and clears input if doesn't.
    The username field holds a string; a state in which it does not is
    outside of what is modelled and is made to throw. *)
Definition onUsernameChangeEnd : M Inst unit :=
  setState {[ "isEditingUsername" := VBool false ]};;
  st ← getState;
  match st !! "username" with
  | Some (VStr name) =>
      if bool_decide (name = "") then mret tt
      else
        match checkUsername ext name with
        | None => checkUsernameAsync name
        | Some false =>
            notifyUnknownUser name;;
            setState {[ "username" := VStr "" ]}
        | Some true => mret tt
        end
  | _ => mthrow
  end.

(** The checkboxes of [render]: what each shows and the checkbox id its
    [onChange] is bound to with [this.onCheckboxChange.bind(this, id)]. *)
Record CheckboxView : Type := {
  checked : option Value;
  disabled : option Value;
  onChangeId : string;
}.

Definition checkboxView (st : Obj) (name : string) (withDisabled : bool)
  : CheckboxView :=
  {| checked := st !! name;
     disabled := if withDisabled then st !! key name "Disabled" else None;
     onChangeId := name |}.

Definition renderCheckboxes (p : Props) (st : Obj) : list CheckboxView :=
  let shown (codename : string) (v : CheckboxView) :=
    if isAssignable p codename then [v] else [] in
  shown "view_asset" (checkboxView st "formView" true) ++
  shown "change_asset" (checkboxView st "formEdit" false) ++
  shown "view_submissions" (checkboxView st "submissionsView" true) ++
  shown "partial_submissions" (checkboxView st "submissionsViewPartial" true) ++
  shown "add_submissions" (checkboxView st "submissionsAdd" true) ++
  shown "partial_submissions" (checkboxView st "submissionsAddPartial" true) ++
  shown "change_submissions" (checkboxView st "submissionsEdit" true) ++
  shown "partial_submissions" (checkboxView st "submissionsEditPartial" true) ++
  shown "validate_submissions" (checkboxView st "submissionsValidate" true) ++
  shown "partial_submissions"
    (checkboxView st "submissionsValidatePartial" true).

End Editor.
End UserAssetPermsEditor.

(** ** The side tabs of the form view *)

Module FormViewTabs.

(** [replacement], as [String.prototype.replace] expands it for a pattern
    that is a string: [$$] is a dollar sign, [$&] the matched text, [$`]
    what precedes the match and [$'] what follows it; any other dollar
    sign stands for itself, there being no capture groups. *)
Fixpoint getSubstitution (matched before after replacement : string) : string :=
  match replacement with
  | EmptyString => EmptyString
  | String a tl =>
      if decide (a = "$"%char) then
        match tl with
        | String c rest =>
            if decide (c = "$"%char) then
              String "$"%char (getSubstitution matched before after rest)
            else if decide (c = "&"%char) then
              matched +:+ getSubstitution matched before after rest
            else if decide (c = "`"%char) then
              before +:+ getSubstitution matched before after rest
            else if decide (c = "'"%char) then
              after +:+ getSubstitution matched before after rest
            else String a (getSubstitution matched before after tl)
        | EmptyString => String a EmptyString
        end
      else String a (getSubstitution matched before after tl)
  end.

(** [s.replace(pattern, replacement)] for a string pattern: only the first
    occurrence is replaced, and [s] is returned when there is none. *)
Definition replace (s pattern replacement : string) : string :=
  match String.index 0 pattern s with
  | Some i =>
      let before := String.substring 0 i s in
      let after :=
        String.substring (i + String.length pattern)
          (String.length s - (i + String.length pattern)) s in
      before +:+ getSubstitution pattern before after replacement +:+ after
  | None => s
  end.

(** The routes of [js/router/routerConstants] that the data tabs use; the
    file is not part of the sources at hand. *)
Record Routes : Type := {
  FORM_TABLE : string;
  FORM_REPORT : string;
  FORM_GALLERY : string;
  FORM_DOWNLOADS : string;
  FORM_MAP : string;
}.

(** One tab; [isDisabled = None] is a tab object without that property. *)
Record Tab : Type := {
  label : string;
  iconName : string;
  path : string;
  isDisabled : option bool;
}.

Section Tabs.
Context (ROUTES : Routes) (t : string → string).

Definition getFormDataTabs (assetUid : string) (hasPartialView : bool)
  : list Tab :=
  [ {| label := t "Table";
       iconName := "table";
       path := replace (FORM_TABLE ROUTES) ":uid" assetUid;
       isDisabled := None |};
    {| label := t "Reports";
       iconName := "reports";
       path := replace (FORM_REPORT ROUTES) ":uid" assetUid;
       isDisabled := None |};
    {| label := t "Gallery";
       iconName := "gallery";
       path := replace (FORM_GALLERY ROUTES) ":uid" assetUid;
       isDisabled := Some hasPartialView |};
    {| label := t "Downloads";
       iconName := "download";
       path := replace (FORM_DOWNLOADS ROUTES) ":uid" assetUid;
       isDisabled := None |};
    {| label := t "Map";
       iconName := "map-view";
       path := replace (FORM_MAP ROUTES) ":uid" assetUid;
       isDisabled := None |} ].

End Tabs.
End FormViewTabs.

(** ** The usage dashboard *)

Module Usage.

(** JavaScript numbers are IEEE 754 binary64 values, as are [float]s. *)
Record UsageState : Type := {
  storage : float;
  monthlySubmissions : float;
  transcriptionMinutes : float;
  translationChars : float;
}.

(** What [getUsage] resolves with (the fields the component reads). *)
Record UsageData : Type := {
  total_storage_bytes : float;
  total_submission_count_current_month : float;
  total_nlp_asr_seconds : float;
  total_nlp_mt_characters : float;
}.

(** The argument of [useState]. *)
Definition initialUsage : UsageState :=
  {| storage := 0%float;
     monthlySubmissions := 0%float;
     transcriptionMinutes := 0%float;
     translationChars := 0%float |}.

(** The state [setUsage] is called with when [getUsage] resolves. *)
Definition usageOfData (data : UsageData) : UsageState :=
  {| storage := (total_storage_bytes data / 1000000)%float;
     monthlySubmissions := total_submission_count_current_month data;
     transcriptionMinutes := (total_nlp_asr_seconds data / 60)%float;
     translationChars := total_nlp_mt_characters data |}.

(** The life of the hook state: the effect runs once after the first
    render and replaces the state when the request resolves. *)
Inductive UsageEvent : Type :=
| GetUsageResolved (data : UsageData).

Definition step (usage : UsageState) (e : UsageEvent) : UsageState :=
  match e with
  | GetUsageResolved data => usageOfData data
  end.

End Usage.

(** ** The quick actions of the projects table *)

Module ProjectQuickActions.

(** The asset types of [ASSET_TYPES]. *)
Inductive AssetType : Type := question | block | template | survey | collection.

#[global] Instance AssetType_eq_dec : EqDecision AssetType.
Proof. solve_decision. Defined.

(** [AssetResponse | ProjectViewAsset]: only the former has the
    [permissions] property ([hasPermissions]). *)
Record Asset : Type := {
  assetUid : string;
  hasPermissions : bool;          (* 'permissions' in props.asset *)
  asset_type : AssetType;
  has_deployment : bool;
  deployment__active : bool;
}.

(** The buttons placed next to the menu, named by their tooltip. *)
Inductive QuickButton : Type :=
| EditInFormBuilder
| ArchiveProject
| UnarchiveProject
| ShareProject.

#[global] Instance QuickButton_eq_dec : EqDecision QuickButton.
Proof. solve_decision. Defined.

Section QuickActions.
(** [userCan] of [components/permissions/utils]. *)
Context (userCan : string → Asset → bool).

Definition isEditingPossible (asset : Asset) : bool :=
  if hasPermissions asset then userCan "change_asset" asset else false.

(** [cond && <Button/>] renders the button when [cond] holds. *)
Definition renderIf (cond : bool) (b : QuickButton) : list QuickButton :=
  if cond then [b] else [].

Definition renderButtons (asset : Asset) : list QuickButton :=
  renderIf (isEditingPossible asset
            && negb (bool_decide (asset_type asset = collection)))
           EditInFormBuilder ++
  renderIf (isEditingPossible asset
            && bool_decide (asset_type asset = survey)
            && has_deployment asset
            && deployment__active asset)
           ArchiveProject ++
  renderIf (isEditingPossible asset
            && bool_decide (asset_type asset = survey)
            && has_deployment asset
            && deployment__active asset)
           UnarchiveProject ++
  [ShareProject].

End QuickActions.
End ProjectQuickActions.

(** ** The validity rules, as the specification words them

    Three passes over the checkboxes of [CHECKBOX_PERM_PAIRS]; these
    definitions follow the description and are compared with
    [applyValidityRules] below. *)

Module ValidityRulesSpec.
Import UserAssetPermsEditor.

(** Sets every key of [ks] to [v]. *)
Definition setAll (ks : list string) (v : Value) (st : Obj) : Obj :=
  foldr (λ k s, <[k := v]> s) st ks.

Section Spec.
Context (ext : Externals).

Definition checkboxNames : list string := (CHECKBOX_PERM_PAIRS ext).*1.

Definition isChecked (st : Obj) (checkbox : string) : bool :=
  is_true (st !! checkbox).

(** Does one of [urls] name the permission [perm] of a checkbox? *)
Definition namedBy (urls : list string) (perm : option string) : bool :=
  existsb (λ u, match getPermission (permConfig ext) u with
                | Some d => bool_decide (perm = Some (codename d))
                | None => false
                end) urls.

(** The checkboxes whose permission is implied by the one of [checkbox]. *)
Definition impliedCheckboxes (checkbox : string) : list string :=
  (filter (λ pair,
     namedBy (getImpliedPermissions ext (getCheckboxPermissionPair ext checkbox))
             pair.2 = true)
     (CHECKBOX_PERM_PAIRS ext)).*1.

(** The checkboxes whose permission is contradictory to it. *)
Definition contradictoryCheckboxes (checkbox : string) : list string :=
  (filter (λ pair,
     namedBy (getContradictoryPermissions ext
                (getCheckboxPermissionPair ext checkbox))
             pair.2 = true)
     (CHECKBOX_PERM_PAIRS ext)).*1.

(** Sets the checkboxes [cs] to [b] and disables them. *)
Definition setAndDisable (cs : list string) (b : bool) (st : Obj) : Obj :=
  setAll ((λ c, key c "Disabled") <$> cs) (VBool true) (setAll cs (VBool b) st).

(** First pass: every Disabled flag is reset. *)
Definition enableAll (st : Obj) : Obj :=
  setAll ((λ c, key c "Disabled") <$> checkboxNames) (VBool false) st.

(** Second pass, for one checkbox: nothing unless it is checked. *)
Definition ruleFor (checkbox : string) (st : Obj) : Obj :=
  if isChecked st checkbox
  then setAndDisable (contradictoryCheckboxes checkbox) false
         (setAndDisable (impliedCheckboxes checkbox) true st)
  else st.

(** Second pass: the checkboxes are visited in map order, each being
    checked or not as the visits before it have left it. *)
Definition applyRules (st : Obj) : Obj :=
  foldl (λ s checkbox, ruleFor checkbox s) st checkboxNames.

(** Third pass: the users of the partial checkboxes left unchecked. *)
Definition clearUncheckedPartials (st : Obj) : Obj :=
  setAll ((λ c, key c "Users") <$>
            filter (λ c, endsWith c "Partial" && negb (isChecked st c) = true)
                   checkboxNames)
         (VList []) st.

Definition threePasses (st : Obj) : Obj :=
  clearUncheckedPartials (applyRules (enableAll st)).

(** The state of a form: every checkbox holds a boolean. *)
Definition checkboxesAreBooleans (st : Obj) : Prop :=
  ∀ c, c ∈ checkboxNames → ∃ b, st !! c = Some (VBool b).

(** The permission configuration: every url listed as implied by or
    contradictory to the permission of a checkbox is one of its urls. *)
Definition urlsResolve : Prop :=
  ∀ c u, c ∈ checkboxNames →
    u ∈ (getImpliedPermissions ext (getCheckboxPermissionPair ext c) ++
         getContradictoryPermissions ext (getCheckboxPermissionPair ext c))%list →
    is_Some (getPermission (permConfig ext) u).

(** The four partial checkboxes. *)
Definition partialCheckboxes : list string :=
  [ "submissionsViewPartial"; "submissionsAddPartial";
    "submissionsEditPartial"; "submissionsValidatePartial" ].

(** Unchecked partial checkboxes have no users. *)
Definition partialUsersCleared (st : Obj) : Prop :=
  ∀ c, c ∈ partialCheckboxes →
    st !! c = Some (VBool false) → st !! key c "Users" = Some (VList []).

End Spec.
End ValidityRulesSpec.

(** ** A permission configuration to evaluate the editor on

    Sample data in the shape of what the backend serves: the codenames map
    to themselves and [permConfig] searches a list of definitions. *)

Module Sample.
Import UserAssetPermsEditor.

Definition permUrl (codename : string) : string :=
  "/api/v2/permissions/" +:+ codename +:+ "/".

Definition permDef (name : string) (imp con : list string) : PermDef :=
  {| url := permUrl name; codename := name;
     implied := permUrl <$> imp; contradictory := permUrl <$> con |}.

Definition definitions : list PermDef :=
  [ permDef "view_asset" [] [];
    permDef "change_asset" ["view_asset"] [];
    permDef "add_submissions" ["view_asset"] [];
    permDef "view_submissions" ["view_asset"] ["partial_submissions"];
    permDef "partial_submissions" ["view_asset"]
      ["view_submissions"; "change_submissions"; "validate_submissions"];
    permDef "change_submissions" ["view_submissions"; "view_asset"]
      ["partial_submissions"];
    permDef "validate_submissions" ["view_submissions"; "view_asset"]
      ["partial_submissions"] ].

Definition configOf (defs : list PermDef) : PermConfig :=
  {| getPermission := λ wantedUrl,
       snd <$> list_find (λ d, url d = wantedUrl) defs;
     getPermissionByCodename := λ wanted,
       snd <$> list_find (λ d, Some (codename d) = wanted) defs |}.

Definition codenames : gmap string string :=
  list_to_map ((λ d, (codename d, codename d)) <$> definitions).

Definition ext (online : bool) (parsed : list Perm)
    (known : string → option bool) : Externals :=
  {| PERMISSIONS_CODENAMES := codenames;
     ANON_USERNAME := "AnonymousUser";
     permConfig := configOf definitions;
     buildFormData := λ _, ∅;
     parseFormData := λ _, parsed;
     buildUserUrl := λ name,
       match name with
       | Some (VStr n) => "/api/v2/users/" +:+ n +:+ "/"
       | _ => "/api/v2/users/undefined/"
       end;
     t := λ s, s;
     checkUsername := known;
     onLine := online |}.

Definition props (withCallback : bool) : Props :=
  {| uid := "aBcD";
     username := None;
     permissions := None;
     assignablePerms :=
       list_to_map ((λ d, (url d, codename d)) <$> definitions);
     nonOwnerPerms :=
       [ {| user := "/api/v2/users/kim/";
            permission := permUrl "view_asset" |};
         {| user := "/api/v2/users/lee/";
            permission := permUrl "view_asset" |} ];
     onSubmitEndIsFunction := withCallback |}.

(** A form in which [formEdit] is checked for the user [name]. *)
Definition formFor (name : string) : Obj :=
  <["formEdit" := VBool true]> (<["username" := VStr name]> initialState).

End Sample.

(** ** Closed forms of the loops of [applyValidityRules]

    What the loops of the code leave in the state object, read off the
    code; the facts below relate them with the description above. *)

Module RulesClosedForm.
Import UserAssetPermsEditor ValidityRulesSpec.

(** One round of the innermost loops of [applyValidityRulesForCheckbox]. *)
Definition checkAndDisable (b : bool) (c : string) (s : Obj) : Obj :=
  <[key c "Disabled" := VBool true]> (<[c := VBool b]> s).

(** The checkboxes that the loop over the urls visits for one url. *)
Definition checkboxesOfUrl (ext : Externals) (u : string) : list string :=
  match getPermission (permConfig ext) u with
  | Some d => getPermissionCheckboxPairs ext (codename d)
  | None => []
  end.

(** The cleanup, stated with the test of the code ([=== false]). *)
Definition clearFalsePartials (ext : Externals) (st : Obj) : Obj :=
  setAll ((λ c, key c "Users") <$>
            filter (λ c, endsWith c "Partial" && is_false (st !! c) = true)
                   (checkboxNames ext))
         (VList []) st.

(** The states that the rules produce: what [applyValidityRules] returns,
    what the constructor leaves and what a checkbox toggle leaves. *)
Inductive Produced (ext : Externals) : Obj → Prop :=
| produced_by_rules st st' :
    applyValidityRules ext st = Ret tt st' → Produced ext st'
| produced_by_constructor p st' :
    constructor ext p = Ret tt st' → Produced ext st'
| produced_by_toggle id isChecked w w' :
    onCheckboxChange ext id isChecked w = Ret tt w' →
    Produced ext (state w').

(** A component state has at least the fields the constructor sets up. *)
Definition hasFormShape (st : Obj) : Prop :=
  dom initialState ⊆ dom st.

(** Checkers for the two assumptions on the configuration and the form. *)
Definition urlsResolveb (ext : Externals) : bool :=
  forallb (λ c,
    forallb (λ u, bool_decide (is_Some (getPermission (permConfig ext) u)))
      (getImpliedPermissions ext (getCheckboxPermissionPair ext c) ++
       getContradictoryPermissions ext (getCheckboxPermissionPair ext c))%list)
    (checkboxNames ext).

Definition checkboxesAreBooleansb (ext : Externals) (st : Obj) : bool :=
  forallb (λ c, match st !! c with Some (VBool _) => true | _ => false end)
    (checkboxNames ext).

End RulesClosedForm.

(** * Facts *)

Import UserAssetPermsEditor ValidityRulesSpec RulesClosedForm.

(** ** Running loops *)

Lemma mbind_Ret {S A B} (m : M S A) (f : A → M S B) s a s' :
  m s = Ret a s' → (m ≫= f) s = f a s'.
Proof. intros H. unfold mbind, M_bind. by rewrite H. Qed.

(** A loop whose body, on the states of an invariant, is an update that
    keeps the invariant, is the left fold of that update. *)
Lemma forEach_foldl {S A} (I : S → Prop) (l : list A)
    (f : A → M S unit) (g : A → S → S) :
  (∀ x s, x ∈ l → I s → f x s = Ret tt (g x s) ∧ I (g x s)) →
  ∀ s, I s →
    forEach l f s = Ret tt (foldl (λ s x, g x s) s l) ∧
    I (foldl (λ s x, g x s) s l).
Proof.
  induction l as [|x l IH]; intros Hf s Hs; [done|].
  destruct (Hf x s) as [Hx HI]; [by left|done|].
  cbn [forEach foldl]. rewrite (mbind_Ret _ _ _ _ _ Hx).
  apply IH; [|done]. intros y s' Hy. apply Hf. by right.
Qed.

Lemma forEach_foldl_total {S A} (l : list A) (f : A → M S unit) (g : A → S → S) :
  (∀ x s, f x s = Ret tt (g x s)) →
  ∀ s, forEach l f s = Ret tt (foldl (λ s x, g x s) s l).
Proof.
  intros Hf s.
  apply (forEach_foldl (λ _, True) l f g); [|done]. intros; by split.
Qed.

Lemma filter_ext_elem {A} (P Q : A → Prop)
    `{!∀ x, Decision (P x)} `{!∀ x, Decision (Q x)} (l : list A) :
  (∀ x, x ∈ l → P x ↔ Q x) → filter P l = filter Q l.
Proof.
  induction l as [|x l IH]; intros HPQ; [done|].
  rewrite !filter_cons. rewrite IH by (intros; apply HPQ; by right).
  destruct (HPQ x) as [H1 H2]; [by left|].
  destruct (decide (P x)), (decide (Q x)); tauto || done.
Qed.

(** ** Keys set to one value *)

Lemma lookup_setAll ks v (st : Obj) k :
  setAll ks v st !! k = if decide (k ∈ ks) then Some v else st !! k.
Proof.
  induction ks as [|k' ks IH]; cbn [setAll foldr].
  - rewrite decide_False; [done|apply not_elem_of_nil].
  - rewrite lookup_insert. fold (setAll ks v st). rewrite IH.
    destruct (decide (k' = k)) as [->|Hne].
    + rewrite decide_True; [done|by left].
    + destruct (decide (k ∈ ks)) as [Hin|Hin].
      * rewrite decide_True; [done|by right].
      * rewrite decide_False; [done|].
        intros [?|?]%elem_of_cons; [by subst|done].
Qed.

Lemma lookup_foldl_insert ks v (st : Obj) k :
  foldl (λ s k', <[k' := v]> s) st ks !! k
  = if decide (k ∈ ks) then Some v else st !! k.
Proof.
  revert st. induction ks as [|k' ks IH]; intros st; cbn [foldl].
  - rewrite decide_False; [done|apply not_elem_of_nil].
  - rewrite IH, lookup_insert.
    destruct (decide (k ∈ ks)) as [Hin|Hin].
    + rewrite decide_True; [done|by right].
    + destruct (decide (k' = k)) as [->|Hne].
      * rewrite decide_True; [done|by left].
      * rewrite decide_False; [done|].
        intros [?|?]%elem_of_cons; [by subst|done].
Qed.

Lemma foldl_insert_setAll ks v (st : Obj) :
  foldl (λ s k', <[k' := v]> s) st ks = setAll ks v st.
Proof. apply map_eq. intros k. by rewrite lookup_foldl_insert, lookup_setAll. Qed.

Section RulesFacts.
Context (ext : Externals).

(** ** The names of the checkboxes *)

Lemma checkboxNames_eq :
  checkboxNames ext =
  [ "formView"; "formEdit"; "submissionsAdd"; "submissionsAddPartial";
    "submissionsView"; "submissionsViewPartial"; "submissionsEdit";
    "submissionsEditPartial"; "submissionsValidate";
    "submissionsValidatePartial" ].
Proof. reflexivity. Qed.

(** No checkbox is named like the flag or the users list of a checkbox. *)
Lemma name_not_derived c c' tail :
  tail = "Disabled" ∨ tail = "Users" →
  c ∈ checkboxNames ext → c' ∈ checkboxNames ext → c ≠ key c' tail.
Proof.
  rewrite checkboxNames_eq. intros Htail Hc Hc'.
  assert (Forall (λ tl, Forall (λ a, Forall (λ b, a ≠ key b tl)
            [ "formView"; "formEdit"; "submissionsAdd"; "submissionsAddPartial";
              "submissionsView"; "submissionsViewPartial"; "submissionsEdit";
              "submissionsEditPartial"; "submissionsValidate";
              "submissionsValidatePartial" ])
            [ "formView"; "formEdit"; "submissionsAdd"; "submissionsAddPartial";
              "submissionsView"; "submissionsViewPartial"; "submissionsEdit";
              "submissionsEditPartial"; "submissionsValidate";
              "submissionsValidatePartial" ]) ["Disabled"; "Users"]) as H.
  { apply (bool_decide_unpack _). vm_compute. exact I. }
  rewrite Forall_forall in H.
  assert (tail ∈ ["Disabled"; "Users"]) as Ht
    by (destruct Htail; subst; [left | right; left]).
  specialize (H _ Ht). rewrite Forall_forall in H.
  specialize (H _ Hc). rewrite Forall_forall in H. by apply H.
Qed.

Lemma pair_name_elem (pair : string * option string) :
  pair ∈ CHECKBOX_PERM_PAIRS ext → pair.1 ∈ checkboxNames ext.
Proof. intros H. unfold checkboxNames. apply list_elem_of_fmap. eauto. Qed.

(** ** First pass *)

Lemma enable_pass (st : Obj) :
  forEach (CHECKBOX_PERM_PAIRS ext)
    (λ pair, assignKey (key pair.1 "Disabled") (VBool false)) st
  = Ret tt (enableAll ext st).
Proof.
  rewrite (forEach_foldl_total _ _
             (λ pair s, <[key pair.1 "Disabled" := VBool false]> s))
    by done.
  f_equal. unfold enableAll, checkboxNames.
  rewrite <- foldl_insert_setAll, <- list_fmap_compose.
  by rewrite foldl_fmap.
Qed.

Lemma enableAll_checkbox (st : Obj) c :
  c ∈ checkboxNames ext → enableAll ext st !! c = st !! c.
Proof.
  intros Hc. unfold enableAll. rewrite lookup_setAll.
  case_decide as Hin; [|done].
  apply list_elem_of_fmap in Hin as (c' & Heq & Hc').
  by destruct (name_not_derived c c' "Disabled"); auto.
Qed.

Lemma enableAll_booleans (st : Obj) :
  checkboxesAreBooleans ext st → checkboxesAreBooleans ext (enableAll ext st).
Proof. intros H c Hc. rewrite enableAll_checkbox by done. by apply H. Qed.

(** ** Checking or unchecking a list of checkboxes, and disabling them *)

Lemma lookup_checkAndDisable_foldl b cs (st : Obj) k :
  (∀ c, c ∈ cs → c ∈ checkboxNames ext) →
  foldl (λ s c, checkAndDisable b c s) st cs !! k
  = if decide (k ∈ (λ c, key c "Disabled") <$> cs) then Some (VBool true)
    else if decide (k ∈ cs) then Some (VBool b)
    else st !! k.
Proof.
  revert st. induction cs as [|c cs IH]; intros st Hcs; cbn [foldl].
  - rewrite !decide_False; [done|apply not_elem_of_nil|apply not_elem_of_nil].
  - rewrite IH by (intros; apply Hcs; by right).
    unfold checkAndDisable. rewrite fmap_cons.
    destruct (decide (k ∈ (λ c, key c "Disabled") <$> cs)) as [Hd|Hd].
    { rewrite decide_True; [done|by right]. }
    destruct (decide (k ∈ cs)) as [Hk|Hk].
    { rewrite decide_False, decide_True; [done|by right|].
      intros [Heq|?]%elem_of_cons; [|done].
      apply (name_not_derived k c "Disabled"); [auto| |apply Hcs; by left|done].
      apply Hcs. by right. }
    rewrite lookup_insert. case_decide as H1.
    { subst k. rewrite decide_True; [done|by left]. }
    rewrite decide_False by (intros [?|?]%elem_of_cons; done).
    rewrite lookup_insert. case_decide as H2.
    { subst k. rewrite decide_True; [done|by left]. }
    rewrite decide_False; [done|]. intros [?|?]%elem_of_cons; done.
Qed.

Lemma lookup_setAndDisable b cs (st : Obj) k :
  setAndDisable cs b st !! k
  = if decide (k ∈ (λ c, key c "Disabled") <$> cs) then Some (VBool true)
    else if decide (k ∈ cs) then Some (VBool b)
    else st !! k.
Proof. unfold setAndDisable. by rewrite !lookup_setAll. Qed.

(** The loops of the code and the description agree as soon as they
    visit the same checkboxes, in whatever order and however often. *)
Lemma checkAndDisable_foldl_setAndDisable b cs cs' (st : Obj) :
  (∀ c, c ∈ cs → c ∈ checkboxNames ext) →
  (∀ c, c ∈ cs ↔ c ∈ cs') →
  foldl (λ s c, checkAndDisable b c s) st cs = setAndDisable cs' b st.
Proof.
  intros Hcs Hsame. apply map_eq. intros k.
  rewrite lookup_checkAndDisable_foldl, lookup_setAndDisable by done.
  assert (k ∈ (λ c, key c "Disabled") <$> cs ↔
          k ∈ (λ c, key c "Disabled") <$> cs') as Hd.
  { rewrite !list_elem_of_fmap. by setoid_rewrite Hsame. }
  destruct (decide (k ∈ (λ c, key c "Disabled") <$> cs)),
           (decide (k ∈ (λ c, key c "Disabled") <$> cs')); try tauto.
  destruct (decide (k ∈ cs)), (decide (k ∈ cs')); try done; naive_solver.
Qed.


(** ** Second pass *)

Lemma getPermissionCheckboxPairs_names cn c :
  c ∈ getPermissionCheckboxPairs ext cn → c ∈ checkboxNames ext.
Proof.
  unfold getPermissionCheckboxPairs.
  intros (pair & -> & Hp)%list_elem_of_fmap.
  apply list_elem_of_filter in Hp as [_ Hp]. by apply pair_name_elem.
Qed.

Lemma checkboxesOfUrl_names u c :
  c ∈ checkboxesOfUrl ext u → c ∈ checkboxNames ext.
Proof.
  unfold checkboxesOfUrl. destruct (getPermission _ u); [|by intros ?%elem_of_nil].
  apply getPermissionCheckboxPairs_names.
Qed.

Lemma inner_loop b cs (st : Obj) :
  forEach cs (λ c, assignKey c (VBool b);;
                   assignKey (key c "Disabled") (VBool true)) st
  = Ret tt (foldl (λ s c, checkAndDisable b c s) st cs).
Proof. by apply forEach_foldl_total. Qed.

Lemma url_loop b urls (st : Obj) :
  (∀ u, u ∈ urls → is_Some (getPermission (permConfig ext) u)) →
  forEach urls (λ permUrl,
    cn ← codenameOfUrl ext permUrl;
    forEach (getPermissionCheckboxPairs ext cn) (λ c,
      assignKey c (VBool b);; assignKey (key c "Disabled") (VBool true))) st
  = Ret tt (foldl (λ s c, checkAndDisable b c s) st
              (urls ≫= checkboxesOfUrl ext)).
Proof.
  revert st. induction urls as [|u urls IH]; intros st Hres; [done|].
  destruct (Hres u) as [d Hd]; [by left|].
  cbn [forEach]. unfold mbind at 1, M_bind at 1.
  unfold mbind at 1, M_bind at 1, codenameOfUrl at 1. rewrite Hd.
  cbn [mret M_ret]. rewrite inner_loop.
  rewrite IH by (intros; apply Hres; by right).
  rewrite bind_cons, foldl_app. unfold checkboxesOfUrl at 2. by rewrite Hd.
Qed.

Lemma elem_of_checkboxesOfUrls urls c :
  c ∈ urls ≫= checkboxesOfUrl ext ↔
  c ∈ (filter (λ pair, namedBy ext urls pair.2 = true)
         (CHECKBOX_PERM_PAIRS ext)).*1.
Proof.
  rewrite list_elem_of_bind, list_elem_of_fmap. split.
  - intros (u & Hc & Hu). unfold checkboxesOfUrl in Hc.
    destruct (getPermission (permConfig ext) u) as [d|] eqn:Hd;
      [|by apply elem_of_nil in Hc].
    apply list_elem_of_fmap in Hc as (pair & -> & Hp).
    apply list_elem_of_filter in Hp as [Hperm Hp].
    exists pair. split; [done|]. apply list_elem_of_filter. split; [|done].
    unfold namedBy. apply existsb_exists. exists u. split.
    + by apply list_elem_of_In.
    + rewrite Hd. by apply bool_decide_eq_true.
  - intros (pair & -> & Hp). apply list_elem_of_filter in Hp as [Hnamed Hp].
    unfold namedBy in Hnamed. apply existsb_exists in Hnamed as (u & Hu & Hd).
    exists u. split; [|by apply list_elem_of_In].
    unfold checkboxesOfUrl.
    destruct (getPermission (permConfig ext) u) as [d|]; [|done].
    apply bool_decide_eq_true in Hd.
    apply list_elem_of_fmap. exists pair. split; [done|].
    by apply list_elem_of_filter.
Qed.

Lemma rule_for_checkbox (st : Obj) c :
  urlsResolve ext → c ∈ checkboxNames ext →
  (∃ b, st !! c = Some (VBool b)) →
  applyValidityRulesForCheckbox ext c st = Ret tt (ruleFor ext c st).
Proof.
  intros Hres Hc [b Hb].
  unfold applyValidityRulesForCheckbox, ruleFor, isChecked.
  unfold mbind at 1, M_bind at 1, mget. rewrite Hb.
  destruct b; cbn [is_false is_true]; [|done].
  erewrite mbind_Ret;
    [|apply url_loop; intros u Hu; apply (Hres c u Hc), elem_of_app; by left].
  rewrite url_loop by (intros u Hu; apply (Hres c u Hc), elem_of_app; by right).
  f_equal.
  rewrite (checkAndDisable_foldl_setAndDisable true _
             (impliedCheckboxes ext c)).
  - apply checkAndDisable_foldl_setAndDisable.
    + intros c' (u & Hc' & _)%list_elem_of_bind.
      by apply checkboxesOfUrl_names in Hc'.
    + intros c'. apply elem_of_checkboxesOfUrls.
  - intros c' (u & Hc' & _)%list_elem_of_bind.
    by apply checkboxesOfUrl_names in Hc'.
  - intros c'. apply elem_of_checkboxesOfUrls.
Qed.

Lemma ruleFor_booleans (st : Obj) c :
  checkboxesAreBooleans ext st → checkboxesAreBooleans ext (ruleFor ext c st).
Proof.
  intros H k Hk. unfold ruleFor. destruct (isChecked st c); [|by apply H].
  rewrite !lookup_setAndDisable.
  repeat case_decide; eauto.
Qed.

Lemma rules_pass (st : Obj) :
  urlsResolve ext → checkboxesAreBooleans ext st →
  forEach (CHECKBOX_PERM_PAIRS ext)
    (λ pair, applyValidityRulesForCheckbox ext pair.1) st
  = Ret tt (applyRules ext st) ∧
  checkboxesAreBooleans ext (applyRules ext st).
Proof.
  intros Hres Hst. unfold applyRules, checkboxNames. rewrite foldl_fmap.
  apply (forEach_foldl (checkboxesAreBooleans ext) _ _
           (λ pair s, ruleFor ext pair.1 s)); [|done].
  intros pair s Hp Hs. split.
  - apply rule_for_checkbox; [done|by apply pair_name_elem|].
    by apply Hs, pair_name_elem.
  - by apply ruleFor_booleans.
Qed.

(** ** Third pass *)

Lemma lookup_foldl_insert_if {A} (P : A → bool) (f : A → string) v
    (l : list A) (st : Obj) k :
  foldl (λ s x, if P x then <[f x := v]> s else s) st l !! k
  = if decide (k ∈ f <$> filter (λ x, P x = true) l) then Some v else st !! k.
Proof.
  revert st. induction l as [|x l IH]; intros st; cbn [foldl].
  - rewrite decide_False; [done|]. by intros ?%elem_of_nil.
  - rewrite IH. destruct (P x) eqn:HP.
    + rewrite filter_cons_True, fmap_cons by done.
      rewrite lookup_insert.
      destruct (decide (k ∈ f <$> filter (λ x, P x = true) l)) as [Hin|Hin].
      * rewrite decide_True; [done|by right].
      * case_decide as Hk.
        -- subst k. rewrite decide_True; [done|by left].
        -- rewrite decide_False; [done|].
           intros [?|?]%elem_of_cons; done.
    + rewrite filter_cons_False; [done|]. by rewrite HP.
Qed.

Lemma clearFalsePartials_checkbox (st : Obj) c :
  c ∈ checkboxNames ext → clearFalsePartials ext st !! c = st !! c.
Proof.
  intros Hc. unfold clearFalsePartials. rewrite lookup_setAll.
  case_decide as Hin; [|done].
  apply list_elem_of_fmap in Hin as (c' & Heq & Hc').
  apply list_elem_of_filter in Hc' as [_ Hc'].
  by destruct (name_not_derived c c' "Users"); auto.
Qed.

Lemma cleanup_pass (st : Obj) :
  forEach (CHECKBOX_PERM_PAIRS ext) (λ pair,
    stateObj ← mget;
    if endsWith pair.1 "Partial" && is_false (stateObj !! pair.1)
    then assignKey (key pair.1 "Users") (VList [])
    else mret tt) st
  = Ret tt (clearFalsePartials ext st).
Proof.
  set (P := λ pair : string * option string,
              endsWith pair.1 "Partial" && is_false (st !! pair.1)).
  set (g := λ (pair : string * option string) (s : Obj),
              if P pair then <[key pair.1 "Users" := VList []]> s else s).
  destruct (forEach_foldl
              (λ s : Obj, ∀ c, c ∈ checkboxNames ext → s !! c = st !! c)
              (CHECKBOX_PERM_PAIRS ext)
              (λ pair, stateObj ← mget;
                 if endsWith pair.1 "Partial" && is_false (stateObj !! pair.1)
                 then assignKey (key pair.1 "Users") (VList [])
                 else mret tt) g) with (s := st) as [Hrun _].
  - intros pair s Hp Hs. unfold mbind, M_bind, mget, g, P.
    rewrite (Hs pair.1) by by apply pair_name_elem.
    destruct (endsWith pair.1 "Partial" && is_false (st !! pair.1));
      (split; [done|]); [|done].
    intros c Hc. rewrite lookup_insert_ne; [by apply Hs|].
    intros Heq. apply (name_not_derived c pair.1 "Users"); auto.
    by apply pair_name_elem.
  - done.
  - rewrite Hrun. f_equal. apply map_eq. intros k.
    unfold g, clearFalsePartials.
    rewrite (lookup_foldl_insert_if P (λ pair, key pair.1 "Users")).
    rewrite lookup_setAll.
    assert (k ∈ (λ pair : string * option string, key pair.1 "Users") <$>
                filter (λ x, P x = true) (CHECKBOX_PERM_PAIRS ext)
            ↔ k ∈ (λ c, key c "Users") <$>
                filter (λ c, endsWith c "Partial" && is_false (st !! c) = true)
                  (checkboxNames ext)) as Hiff.
    { rewrite !list_elem_of_fmap. split.
      - intros (pair & -> & [HP Hp]%list_elem_of_filter).
        exists pair.1. split; [done|]. apply list_elem_of_filter.
        split; [done|by apply pair_name_elem].
      - intros (c & -> & [HP Hc]%list_elem_of_filter).
        apply list_elem_of_fmap in Hc as (pair & -> & Hp).
        exists pair. split; [done|]. by apply list_elem_of_filter. }
    repeat case_decide; tauto.
Qed.

Lemma clearFalsePartials_booleans (st : Obj) :
  checkboxesAreBooleans ext st →
  clearFalsePartials ext st = clearUncheckedPartials ext st.
Proof.
  intros Hst. unfold clearFalsePartials, clearUncheckedPartials. f_equal. f_equal.
  apply filter_ext_elem. intros c Hc. unfold isChecked.
  destruct (Hst c Hc) as [[] ->]; cbn; by rewrite ?andb_false_r, ?andb_true_r.
Qed.

(** ** The three passes *)

(** Whatever the configuration and the state, a run that returns ends
    with the cleanup. *)
Lemma applyValidityRules_ends_with_cleanup (st st' : Obj) :
  applyValidityRules ext st = Ret tt st' →
  ∃ st2, st' = clearFalsePartials ext st2.
Proof.
  unfold applyValidityRules. unfold mbind at 1, M_bind at 1.
  destruct (forEach _ _ st) as [[] s1|s1]; [|done].
  unfold mbind at 1, M_bind at 1.
  destruct (forEach _ _ s1) as [[] s2|s2]; [|done].
  rewrite cleanup_pass. intros [= <-]. by exists s2.
Qed.

Lemma partialCheckboxes_spec c :
  c ∈ partialCheckboxes →
  c ∈ checkboxNames ext ∧ endsWith c "Partial" = true.
Proof.
  intros Hc. unfold partialCheckboxes in Hc.
  rewrite !elem_of_cons, elem_of_nil in Hc. rewrite checkboxNames_eq.
  destruct Hc as [->|[->|[->|[->|[]]]]]; (split; [|by vm_compute]);
    rewrite !elem_of_cons; tauto.
Qed.

Lemma clearFalsePartials_cleared (st : Obj) :
  partialUsersCleared (clearFalsePartials ext st).
Proof.
  intros c [Hc Hends]%partialCheckboxes_spec Hfalse.
  rewrite clearFalsePartials_checkbox in Hfalse by done.
  unfold clearFalsePartials. rewrite lookup_setAll.
  rewrite decide_True; [done|].
  apply list_elem_of_fmap. exists c. split; [done|].
  apply list_elem_of_filter. split; [|done].
  by rewrite Hends, Hfalse.
Qed.

End RulesFacts.

(** ** Checking the assumptions by evaluation *)

(** Closes [x = y] by evaluating both sides. *)
Ltac by_evaluation :=
  match goal with
  | |- ?x = ?y => vm_cast_no_check (@eq_refl _ y)
  end.

Lemma urlsResolveb_sound ext : urlsResolveb ext = true → urlsResolve ext.
Proof.
  unfold urlsResolveb, urlsResolve. rewrite forallb_forall.
  intros H c u Hc Hu. apply list_elem_of_In in Hc. specialize (H c Hc).
  rewrite forallb_forall in H. apply list_elem_of_In in Hu.
  specialize (H u Hu). by apply bool_decide_eq_true in H.
Qed.

Lemma checkboxesAreBooleansb_sound ext (st : Obj) :
  checkboxesAreBooleansb ext st = true → checkboxesAreBooleans ext st.
Proof.
  unfold checkboxesAreBooleansb, checkboxesAreBooleans. rewrite forallb_forall.
  intros H c Hc. apply list_elem_of_In in Hc. specialize (H c Hc).
  destruct (st !! c) as [[]|]; try done. by eexists.
Qed.

(** ** The validity rules *)



(** The passes at work: checking [submissionsEdit] checks and disables
    the view checkboxes it implies and locks the partial ones. *)
Example threePasses_submissionsEdit :
  let st' := threePasses (Sample.ext true [] (λ _, None))
               (<["submissionsEdit" := VBool true]> initialState) in
  (st' !! "submissionsView", st' !! "submissionsViewDisabled") =
    (Some (VBool true), Some (VBool true)) ∧
  (st' !! "formView", st' !! "formViewDisabled") =
    (Some (VBool true), Some (VBool true)) ∧
  (st' !! "submissionsEditPartial", st' !! "submissionsEditPartialDisabled") =
    (Some (VBool false), Some (VBool true)) ∧
  (st' !! "submissionsEdit", st' !! "submissionsEditDisabled") =
    (Some (VBool true), Some (VBool false)) ∧
  st' !! "formEditDisabled" = Some (VBool false).
Proof. vm_compute. repeat split. Qed.

(** When the configuration lists a url it does not know, the rules throw
    once a checkbox that lists it is checked. *)
Example applyValidityRules_throws :
  let dangling :=
    {| url := "/p/change_asset/"; codename := "change_asset";
       implied := ["/p/nowhere/"]; contradictory := [] |} in
  let e :=
    {| PERMISSIONS_CODENAMES := Sample.codenames;
       ANON_USERNAME := "AnonymousUser";
       permConfig := Sample.configOf [dangling];
       buildFormData := λ _, ∅;
       parseFormData := λ _, [];
       buildUserUrl := λ _, "";
       t := λ s, s;
       checkUsername := λ _, None;
       onLine := true |} in
  match applyValidityRules e (<["formEdit" := VBool true]> initialState) with
  | Throw _ => True
  | Ret _ _ => False
  end.
Proof. vm_compute. exact I. Qed.

(** ** Unchecked partial checkboxes have no users *)

Lemma initialState_cleared : partialUsersCleared initialState.
Proof.
  intros c Hc _. unfold partialCheckboxes in Hc.
  rewrite !elem_of_cons, elem_of_nil in Hc.
  by destruct Hc as [->|[->|[->|[->|[]]]]].
Qed.

Lemma partialUsersCleared_username (st : Obj) v :
  partialUsersCleared st → partialUsersCleared (<["username" := v]> st).
Proof.
  intros H c Hc. specialize (H c Hc). unfold partialCheckboxes in Hc.
  rewrite !elem_of_cons, elem_of_nil in Hc.
  destruct Hc as [->|[->|[->|[->|[]]]]];
    by rewrite !lookup_insert_ne by done.
Qed.

Lemma rules_cleared ext (st st' : Obj) :
  applyValidityRules ext st = Ret tt st' → partialUsersCleared st'.
Proof.
  intros [st2 ->]%applyValidityRules_ends_with_cleanup.
  apply clearFalsePartials_cleared.
Qed.

Lemma constructor_cleared ext p (st' : Obj) :
  constructor ext p = Ret tt st' → partialUsersCleared st'.
Proof.
  unfold constructor, applyPropsData. unfold mbind at 1, M_bind at 1.
  assert (∀ s, partialUsersCleared s →
            match username p with
            | Some u => if bool_decide (u = "") then mret tt
                        else assignKey "username" (VStr u)
            | None => mret tt
            end s = Ret tt st' → partialUsersCleared st') as Hname.
  { intros s Hs. destruct (username p) as [u|]; [|by intros [= <-]].
    case_bool_decide; [by intros [= <-]|].
    intros [= <-]. by apply partialUsersCleared_username. }
  destruct (permissions p) as [perms|].
  - unfold mbind at 1, M_bind at 1, mmodify at 1.
    destruct (applyValidityRules ext _) as [[] s|s] eqn:Hrules; [|done].
    apply Hname. by eapply rules_cleared.
  - apply Hname, initialState_cleared.
Qed.

Lemma onCheckboxChange_run ext id isChecked w :
  onCheckboxChange ext id isChecked w =
  match applyValidityRules ext (<[id := VBool isChecked]> (state w)) with
  | Ret _ st' => Ret tt (setStateObj st' w)
  | Throw st' => Throw (setStateObj st' w)
  end.
Proof.
  unfold onCheckboxChange, mbind, M_bind, onState, zoom, assignKey, mmodify.
  cbn [state setStateObj].
  destruct (applyValidityRules ext _) as [[] st'|st']; [|done].
  unfold getState, setState, onState, zoom, mmodify, setStateObj.
  cbn [state effects]. by rewrite (idemp_L (∪)).
Qed.

Lemma toggle_cleared ext id isChecked w w' :
  onCheckboxChange ext id isChecked w = Ret tt w' →
  partialUsersCleared (state w').
Proof.
  rewrite onCheckboxChange_run.
  destruct (applyValidityRules ext _) as [[] st'|st'] eqn:Hrules; [|done].
  intros [= <-]. by eapply rules_cleared.
Qed.

(** C5. In any state produced by [applyValidityRules] (returned by it,
    left by the constructor, or left by a checkbox toggle), each of the
    four partial checkboxes that is false has an empty Users list. *)
Theorem partial_users_invariant (ext : Externals) (st' : Obj) :
  Produced ext st' → partialUsersCleared st'.
Proof.
  intros [st st1 H|p st1 H|id b w w' H].
  - by eapply rules_cleared.
  - by eapply constructor_cleared.
  - by eapply toggle_cleared.
Qed.

Lemma partial_users_invariant_witness :
  let e := Sample.ext true [] (λ _, None) in
  let st :=
    <["submissionsViewPartialUsers" := VList ["kim"]]>
      (<["submissionsView" := VBool true]> initialState) in
  applyValidityRules e st = Ret tt (threePasses e st) ∧
  partialUsersCleared (threePasses e st).
Proof.
  intros e st.
  assert (applyValidityRules e st = Ret tt (threePasses e st)) as Hrun
    by by_evaluation.
  split; [exact Hrun|].
  exact (partial_users_invariant e _ (produced_by_rules e st _ Hrun)).
Defined.

(** ** Checkbox toggles *)

Lemma renderCheckboxes_ids ext p (st : Obj) v :
  v ∈ renderCheckboxes ext p st →
  onChangeId v ∈ checkboxNames ext ∧ checked v = st !! onChangeId v.
Proof.
  unfold renderCheckboxes. cbv zeta beta. rewrite checkboxNames_eq. intros H.
  repeat (apply elem_of_app in H as [H|H]);
    (destruct (isAssignable _ _ _); [|by apply elem_of_nil in H]);
    apply list_elem_of_singleton in H; subst v;
    cbn [onChangeId checked checkboxView];
    (split; [rewrite !elem_of_cons; tauto|reflexivity]).
Qed.

(** C2. A checkbox toggle sets the field named [id] to [isChecked] and
    leaves as component state what [applyValidityRules] makes of the
    state so updated (also when the rules throw, the state object having
    been mutated in place); and every checkbox that is rendered is bound
    to this handler with the id of one of the checkboxes of the map. *)
Theorem onCheckboxChange_reapplies_rules (ext : Externals) :
  (∀ id isChecked w,
     onCheckboxChange ext id isChecked w =
     match applyValidityRules ext (<[id := VBool isChecked]> (state w)) with
     | Ret _ st' => Ret tt (setStateObj st' w)
     | Throw st' => Throw (setStateObj st' w)
     end) ∧
  (∀ p st v, v ∈ renderCheckboxes ext p st →
             onChangeId v ∈ checkboxNames ext ∧
             checked v = st !! onChangeId v).
Proof.
  split.
  - apply onCheckboxChange_run.
  - apply renderCheckboxes_ids.
Qed.

(** ** Submitting *)

Lemma andAlso_true a b :
  a &&? b = Some true ↔ a = Some true ∧ b = Some true.
Proof. destruct a as [[]|]; cbn; naive_solver. Qed.

Lemma andAlso_is_Some a b : is_Some a → is_Some b → is_Some (a &&? b).
Proof. intros [[] ->] Hb; cbn; eauto. Qed.

Lemma andAlso_false_r a : is_Some a → a &&? Some false = Some false.
Proof. by intros [[] ->]. Qed.

Lemma isSubmitEnabled_not_pending ext (st : Obj) :
  isSubmitEnabled ext st = Some true →
  truthy (st !! "isSubmitPending") = false.
Proof.
  unfold isSubmitEnabled. rewrite !andAlso_true.
  intros (((((_ & Hpending) & _) & _) & _) & _).
  injection Hpending as Hpending. by apply negb_true_iff.
Qed.

Lemma lookup_setProp k v (o : Obj) k' :
  setProp k v o !! k' = if decide (k = k') then v else o !! k'.
Proof.
  unfold setProp. destruct v.
  - apply lookup_insert.
  - rewrite lookup_delete. by case_decide.
Qed.

Lemma lookup_copyIf b k (st output : Obj) k' :
  k ≠ k' → copyIf b k st output !! k' = output !! k'.
Proof.
  intros Hne. unfold copyIf. destruct b; [|done].
  rewrite lookup_setProp. by rewrite decide_False.
Qed.

(** The form data carry the username of the state. *)
Lemma getFormData_username ext p (st : Obj) :
  getFormData ext p st !! "username" = st !! "username".
Proof.
  unfold getFormData. rewrite !lookup_copyIf by done.
  rewrite lookup_setProp. by rewrite decide_True.
Qed.

Lemma notifyParentAboutSubmitEnd_run p isSuccess w :
  truthy (state w !! "isSubmitPending") = false →
  notifyParentAboutSubmitEnd p isSuccess w =
  Ret tt {| state := state w;
            effects := if onSubmitEndIsFunction p
                       then effects w ++ [OnSubmitEnd isSuccess]
                       else effects w |}.
Proof.
  intros Hpending. unfold notifyParentAboutSubmitEnd, mbind, M_bind, getState.
  rewrite Hpending. cbn [negb andb].
  destruct (onSubmitEndIsFunction p); [done|]. by destruct w.
Qed.

(** C3, as the code has it.  When [submit] runs on a form that is ready
    and the parsed form data are not empty, [isSubmitPending] is set and
    [bulkSetAssetPermissions] is called with the asset uid and the
    permissions of the other users (those of [nonOwnerPerms] whose user
    is not the url of the edited username) followed by the parsed ones;
    when they are empty no action is dispatched, and [onSubmitEnd] is
    called with [true] provided it is a function. *)
Theorem submit_dispatches (ext : Externals) (p : Props) (w : Inst) :
  isSubmitEnabled ext (state w) = Some true →
  submit ext p w =
  match parseFormData ext (getFormData ext p (state w)) with
  | [] =>
      Ret (Some false)
        {| state := state w;
           effects := if onSubmitEndIsFunction p
                      then effects w ++ [PreventDefault; OnSubmitEnd true]
                      else effects w ++ [PreventDefault] |}
  | parsedUser =>
      Ret (Some false)
        {| state := <["isSubmitPending" := VBool true]> (state w);
           effects :=
             effects w ++
             [ PreventDefault;
               BulkSetAssetPermissions (uid p)
                 (filter (λ perm, user perm ≠
                                  buildUserUrl ext (state w !! "username"))
                         (nonOwnerPerms p) ++ parsedUser) ] |}
  end.
Proof.
  intros Henabled. unfold submit.
  unfold mbind at 1, M_bind at 1, emit at 1, mmodify at 1.
  unfold mbind at 1, M_bind at 1, getState at 1. cbn [state].
  rewrite Henabled. rewrite getFormData_username.
  destruct (parseFormData ext _) as [|perm parsed]; cbn [length Nat.ltb Nat.leb].
  - unfold mbind, M_bind.
    rewrite notifyParentAboutSubmitEnd_run
      by (cbn [state]; by apply (isSubmitEnabled_not_pending ext)).
    cbn [state effects mret M_ret].
    destruct (onSubmitEndIsFunction p); [|done].
    by rewrite <- app_assoc.
  - unfold mbind, M_bind, setState, onState, zoom, emit, mmodify, setStateObj.
    cbn [state effects mret M_ret].
    rewrite <- insert_union_singleton_l. by rewrite <- app_assoc.
Qed.

Lemma submit_dispatches_witness :
  let e :=
    Sample.ext true
      [ {| user := "/api/v2/users/kim/";
           permission := Sample.permUrl "change_asset" |} ] (λ _, None) in
  let w := {| state := Sample.formFor "kim"; effects := [] |} in
  isSubmitEnabled e (state w) = Some true ∧
  submit e (Sample.props true) w =
  Ret (Some false)
    {| state := <["isSubmitPending" := VBool true]> (state w);
       effects :=
         [ PreventDefault;
           BulkSetAssetPermissions "aBcD"
             [ {| user := "/api/v2/users/lee/";
                  permission := Sample.permUrl "view_asset" |};
               {| user := "/api/v2/users/kim/";
                  permission := Sample.permUrl "change_asset" |} ] ] |}.
Proof.
  intros e w.
  assert (isSubmitEnabled e (state w) = Some true) as H by by_evaluation.
  split; [exact H|].
  etrans; [exact (submit_dispatches e (Sample.props true) w H)|].
  by_evaluation.
Defined.

(** C3 as worded fails where the parent passes no [onSubmitEnd]: the form
    is ready, nothing is parsed, and yet nothing is invoked. *)
Lemma submit_without_callback_counterexample :
  let e := Sample.ext true [] (λ _, None) in
  let p := Sample.props false in
  let w := {| state := Sample.formFor "kim"; effects := [] |} in
  let w' := {| state := state w; effects := [PreventDefault] |} in
  isSubmitEnabled e (state w) = Some true ∧
  parseFormData e (getFormData e p (state w)) = [] ∧
  submit e p w = Ret (Some false) w' ∧
  OnSubmitEnd true ∉ effects w'.
Proof.
  repeat split; try by_evaluation.
  cbn [effects]. by intros ?%list_elem_of_singleton.
Qed.

(** C4. When the bulk submission finishes, with success or with failure,
    [isSubmitPending] is reset to false and then [onSubmitEnd], when it is
    a function, is called: with [true] on completion and with [false] on
    failure. *)
Theorem bulk_submission_finished (p : Props) (w : Inst) :
  onBulkSetAssetPermissionCompleted p w =
    Ret tt {| state := <["isSubmitPending" := VBool false]> (state w);
              effects := if onSubmitEndIsFunction p
                         then effects w ++ [OnSubmitEnd true]
                         else effects w |} ∧
  onBulkSetAssetPermissionFailed p w =
    Ret tt {| state := <["isSubmitPending" := VBool false]> (state w);
              effects := if onSubmitEndIsFunction p
                         then effects w ++ [OnSubmitEnd false]
                         else effects w |}.
Proof.
  unfold onBulkSetAssetPermissionCompleted, onBulkSetAssetPermissionFailed.
  split;
    unfold mbind, M_bind, setState, onState, zoom, mmodify, setStateObj;
    cbn [state effects];
    rewrite <- insert_union_singleton_l;
    rewrite notifyParentAboutSubmitEnd_run
      by (cbn [state]; by rewrite lookup_insert_eq);
    done.
Qed.

(** ** The anonymous user *)

Lemma hasFormShape_lookup (st : Obj) k :
  hasFormShape st → is_Some (initialState !! k) → is_Some (st !! k).
Proof.
  unfold hasFormShape. rewrite <- !elem_of_dom. intros Hsub Hk. by apply Hsub.
Qed.

Lemma isPartialValid_is_Some (st : Obj) name :
  is_Some (st !! key name "Users") → is_Some (isPartialValid st name).
Proof.
  intros [v Hv]. unfold isPartialValid. destruct (truthy _); [|by eexists].
  rewrite Hv. destruct v; cbn; by eexists.
Qed.

Lemma isSubmitEnabled_anonymous ext (st : Obj) :
  hasFormShape st →
  st !! "username" = Some (VStr (ANON_USERNAME ext)) →
  isSubmitEnabled ext st = Some false.
Proof.
  intros Hshape Huser. unfold isSubmitEnabled. rewrite Huser.
  rewrite bool_decide_eq_true_2 by done. cbn [negb].
  apply andAlso_false_r.
  destruct (hasFormShape_lookup st "usernamesBeingChecked" Hshape) as [v Hv];
    [by eexists|].
  repeat apply andAlso_is_Some; try (by eexists);
    try (apply isPartialValid_is_Some, hasFormShape_lookup; [done|by eexists]).
  rewrite Hv. destruct v; cbn; by eexists.
Qed.

(** Whatever else the state holds, a form of the anonymous user is never
    found ready. *)
Lemma isSubmitEnabled_anonymous_never_true ext (st : Obj) :
  st !! "username" = Some (VStr (ANON_USERNAME ext)) →
  isSubmitEnabled ext st ≠ Some true.
Proof.
  intros Huser. unfold isSubmitEnabled. rewrite !andAlso_true.
  intros (_ & Hanon). rewrite Huser in Hanon.
  by rewrite bool_decide_eq_true_2 in Hanon.
Qed.

(** C6. In every component state whose username is [ANON_USERNAME],
    [isSubmitEnabled] returns false, so that [submit] returns at once:
    the state is left as it is and nothing but [preventDefault] happens,
    [bulkSetAssetPermissions] in particular is not called. *)
Theorem anonymous_user_never_submitted
    (ext : Externals) (p : Props) (w : Inst) :
  hasFormShape (state w) →
  state w !! "username" = Some (VStr (ANON_USERNAME ext)) →
  isSubmitEnabled ext (state w) = Some false ∧
  submit ext p w =
    Ret None {| state := state w; effects := effects w ++ [PreventDefault] |}.
Proof.
  intros Hshape Huser.
  pose proof (isSubmitEnabled_anonymous ext (state w) Hshape Huser) as Hno.
  split; [done|].
  unfold submit, mbind, M_bind, emit, mmodify, getState. cbn [state].
  by rewrite Hno.
Qed.

Lemma anonymous_user_never_submitted_witness :
  let e := Sample.ext true
             [ {| user := "/api/v2/users/AnonymousUser/";
                  permission := Sample.permUrl "change_asset" |} ]
             (λ _, Some true) in
  let w := {| state := Sample.formFor "AnonymousUser"; effects := [] |} in
  hasFormShape (state w) ∧
  state w !! "username" = Some (VStr (ANON_USERNAME e)) ∧
  isSubmitEnabled e (state w) = Some false ∧
  submit e (Sample.props true) w =
    Ret None {| state := state w; effects := [PreventDefault] |}.
Proof.
  intros e w.
  assert (hasFormShape (state w)) as H1
    by (apply (bool_decide_unpack _); vm_compute; exact I).
  assert (state w !! "username" = Some (VStr (ANON_USERNAME e))) as H2
    by by_evaluation.
  split; [exact H1|]. split; [exact H2|].
  exact (anonymous_user_never_submitted e (Sample.props true) w H1 H2).
Defined.

(** The same form is ready for any other user. *)
Example named_user_is_submitted :
  isSubmitEnabled (Sample.ext true [] (λ _, Some true)) (Sample.formFor "kim")
  = Some true.
Proof. by_evaluation. Qed.

(** ** The end of username editing *)

(** C7, as the code has it.  When username editing ends with a username
    that is not empty: if the user is known not to exist the username is
    cleared, and the unknown user is notified about when the browser is
    online; if nothing is known the username joins
    [usernamesBeingChecked] and the API check is dispatched; if the user
    is known to exist the username is left as it is.  In all three cases
    [isEditingUsername] is reset. *)
Theorem onUsernameChangeEnd_outcomes
    (ext : Externals) (w : Inst) (name : string) :
  state w !! "username" = Some (VStr name) →
  name ≠ "" →
  onUsernameChangeEnd ext w =
  let st := <["isEditingUsername" := VBool false]> (state w) in
  match checkUsername ext name with
  | Some false =>
      Ret tt {| state := <["username" := VStr ""]> st;
                effects :=
                  if onLine ext
                  then effects w ++
                       [Notify (t ext "User not found:" +:+ " " +:+ name)
                               "warning"]
                  else effects w |}
  | None =>
      match state w !! "usernamesBeingChecked" with
      | Some (VSet names) =>
          Ret tt {| state :=
                      <["usernamesBeingChecked" := VSet ({[ name ]} ∪ names)]>
                        st;
                    effects := effects w ++ [CheckUsernameAction name] |}
      | _ => Throw {| state := st; effects := effects w |}
      end
  | Some true =>
      Ret tt {| state := st; effects := effects w |}
  end.
Proof.
  intros Huser Hname. unfold onUsernameChangeEnd.
  unfold mbind at 1, M_bind at 1, setState at 1, onState, zoom, mmodify.
  unfold mbind at 1, M_bind at 1, getState at 1, setStateObj.
  cbn [state effects]. rewrite <- insert_union_singleton_l.
  rewrite lookup_insert_ne by done. rewrite Huser.
  rewrite bool_decide_eq_false_2 by done.
  destruct (checkUsername ext name) as [[]|]; cbv zeta.
  - done.
  - unfold mbind, M_bind, notifyUnknownUser, setState, onState, zoom, emit,
      mmodify, setStateObj.
    destruct (onLine ext); cbn [state effects mret M_ret];
      by rewrite <- insert_union_singleton_l.
  - unfold checkUsernameAsync, mbind, M_bind, getState. cbn [state].
    rewrite lookup_insert_ne by done.
    destruct (state w !! "usernamesBeingChecked") as [[| | |names]|]; try done.
    unfold setState, onState, zoom, assignKey, emit, mmodify, setStateObj.
    cbn [state effects].
    rewrite <- insert_union_singleton_l. by rewrite insert_insert_eq.
Qed.

Lemma onUsernameChangeEnd_outcomes_witness :
  let e := Sample.ext true [] (λ _, Some false) in
  let w := {| state := Sample.formFor "nobody"; effects := [] |} in
  state w !! "username" = Some (VStr "nobody") ∧
  "nobody" ≠ "" ∧
  onUsernameChangeEnd e w =
    Ret tt {| state := <["username" := VStr ""]>
                         (<["isEditingUsername" := VBool false]> (state w));
              effects := [Notify "User not found: nobody" "warning"] |}.
Proof.
  intros e w.
  assert (state w !! "username" = Some (VStr "nobody")) as H1 by by_evaluation.
  assert ("nobody" ≠ "") as H2 by discriminate.
  split; [exact H1|]. split; [exact H2|].
  exact (onUsernameChangeEnd_outcomes e w "nobody" H1 H2).
Defined.

(** A username nothing is known about is put under check. *)
Example onUsernameChangeEnd_unchecked_user :
  let e := Sample.ext true [] (λ _, None) in
  let w := {| state := Sample.formFor "kim"; effects := [] |} in
  onUsernameChangeEnd e w =
    Ret tt {| state :=
                <["usernamesBeingChecked" := VSet {[ "kim" ]}]>
                  (<["isEditingUsername" := VBool false]> (state w));
              effects := [CheckUsernameAction "kim"] |}.
Proof. intros e w. by_evaluation. Qed.

(** C7 as worded fails when the browser is offline: the unknown username
    is cleared, but nothing is notified. *)
Lemma offline_unknown_user_counterexample :
  let e := Sample.ext false [] (λ _, Some false) in
  let w := {| state := Sample.formFor "nobody"; effects := [] |} in
  let w' := {| state := <["username" := VStr ""]>
                          (<["isEditingUsername" := VBool false]> (state w));
               effects := [] |} in
  checkUsername e "nobody" = Some false ∧
  onUsernameChangeEnd e w = Ret tt w' ∧
  ∀ msg kind, Notify msg kind ∉ effects w'.
Proof.
  repeat split; try by_evaluation.
  intros msg kind. cbn [effects]. apply not_elem_of_nil.
Qed.

(** ** The data tabs *)

Import FormViewTabs.

(** A replacement without dollar signs is inserted as it is. *)
Lemma getSubstitution_plain matched before after replacement :
  (∀ n, String.get n replacement ≠ Some "$"%char) →
  getSubstitution matched before after replacement = replacement.
Proof.
  induction replacement as [|a tl IH]; intros Hplain; [done|].
  cbn [getSubstitution]. destruct (decide (a = "$"%char)) as [->|_].
  - by destruct (Hplain 0).
  - f_equal. apply IH. intros n. apply (Hplain (S n)).
Qed.

Lemma replace_plain s pattern replacement i :
  String.index 0 pattern s = Some i →
  (∀ n, String.get n replacement ≠ Some "$"%char) →
  replace s pattern replacement =
  String.substring 0 i s +:+ replacement +:+
  String.substring (i + String.length pattern)
    (String.length s - (i + String.length pattern)) s.
Proof.
  intros Hi Hplain. unfold replace. rewrite Hi.
  by rewrite getSubstitution_plain.
Qed.

Example replace_uid :
  replace "/forms/:uid/data/table" ":uid" "aBcD" = "/forms/aBcD/data/table".
Proof. reflexivity. Qed.


Example getFormDataTabs_paths :
  path <$> getFormDataTabs
             {| FORM_TABLE := "/forms/:uid/data/table";
                FORM_REPORT := "/forms/:uid/data/report";
                FORM_GALLERY := "/forms/:uid/data/gallery";
                FORM_DOWNLOADS := "/forms/:uid/data/downloads";
                FORM_MAP := "/forms/:uid/data/map" |}
             (λ s, s) "aBcD" true =
  [ "/forms/aBcD/data/table"; "/forms/aBcD/data/report";
    "/forms/aBcD/data/gallery"; "/forms/aBcD/data/downloads";
    "/forms/aBcD/data/map" ].
Proof. reflexivity. Qed.

(** ** The usage dashboard *)

Import Usage.

(** C9. The usage state starts with four zeros, and once [getUsage] has
    resolved with [data] it is: storage, the bytes divided by 1,000,000;
    monthly submissions, the count of the current month; transcription
    minutes, the seconds divided by 60; translation characters, the
    count of characters. *)
Theorem usage_state_of_data (usage : UsageState) (data : UsageData) :
  ( storage initialUsage, monthlySubmissions initialUsage,
    transcriptionMinutes initialUsage, translationChars initialUsage ) =
    (0%float, 0%float, 0%float, 0%float) ∧
  storage (step usage (GetUsageResolved data)) =
    (total_storage_bytes data / 1000000)%float ∧
  monthlySubmissions (step usage (GetUsageResolved data)) =
    total_submission_count_current_month data ∧
  transcriptionMinutes (step usage (GetUsageResolved data)) =
    (total_nlp_asr_seconds data / 60)%float ∧
  translationChars (step usage (GetUsageResolved data)) =
    total_nlp_mt_characters data.
Proof. repeat split. Qed.

Example usage_of_sample_data :
  step initialUsage
    (GetUsageResolved
       {| total_storage_bytes := 2500000%float;
          total_submission_count_current_month := 12%float;
          total_nlp_asr_seconds := 90%float;
          total_nlp_mt_characters := 3400%float |})
  = {| storage := 2.5%float;
       monthlySubmissions := 12%float;
       transcriptionMinutes := 1.5%float;
       translationChars := 3400%float |}.
Proof. vm_compute. reflexivity. Qed.

(** ** The quick actions *)

Import ProjectQuickActions.

Lemma elem_of_renderIf cond (b b' : QuickButton) :
  b ∈ renderIf cond b' ↔ cond = true ∧ b = b'.
Proof.
  unfold renderIf. destruct cond.
  - rewrite list_elem_of_singleton. naive_solver.
  - rewrite elem_of_nil. naive_solver.
Qed.

Lemma archive_condition userCan asset :
  (isEditingPossible userCan asset
   && bool_decide (asset_type asset = survey)
   && has_deployment asset && deployment__active asset) = true ↔
  hasPermissions asset = true ∧ userCan "change_asset" asset = true ∧
  asset_type asset = survey ∧
  has_deployment asset = true ∧ deployment__active asset = true.
Proof.
  rewrite !andb_true_iff, bool_decide_eq_true. unfold isEditingPossible.
  destruct (hasPermissions asset); naive_solver.
Qed.

(** C10. The buttons [Archive project] and [Unarchive project] are
    rendered under one and the same condition: the asset has the
    [permissions] property and the user can [change_asset], the asset is
    a survey, it has a deployment and the deployment is active.  Hence
    both are rendered or none is, and none is for an asset without the
    [permissions] property. *)
Theorem archive_and_unarchive_together
    (userCan : string → Asset → bool) (asset : Asset) :
  (ArchiveProject ∈ renderButtons userCan asset ↔
   hasPermissions asset = true ∧ userCan "change_asset" asset = true ∧
   asset_type asset = survey ∧
   has_deployment asset = true ∧ deployment__active asset = true) ∧
  (UnarchiveProject ∈ renderButtons userCan asset ↔
   ArchiveProject ∈ renderButtons userCan asset) ∧
  (hasPermissions asset = false →
   (ArchiveProject ∉ renderButtons userCan asset) ∧
   (UnarchiveProject ∉ renderButtons userCan asset)).
Proof.
  assert (∀ b, b ∈ [ArchiveProject; UnarchiveProject] →
            b ∈ renderButtons userCan asset ↔
            hasPermissions asset = true ∧ userCan "change_asset" asset = true ∧
            asset_type asset = survey ∧
            has_deployment asset = true ∧ deployment__active asset = true)
    as Hboth.
  { intros b Hb. unfold renderButtons.
    rewrite !elem_of_app, !elem_of_renderIf, list_elem_of_singleton.
    rewrite archive_condition.
    rewrite !elem_of_cons, elem_of_nil in Hb.
    destruct Hb as [->|[->|[]]]; naive_solver. }
  split; [apply Hboth; by left|].
  split; [rewrite !Hboth; [done|by left|by right; left]|].
  intros Hno. rewrite !Hboth; [|by right; left|by left].
  rewrite Hno. naive_solver.
Qed.
